(** * Rate-card header renderers ([static/js/ratecards.js])

    A shallow embedding of the four renderers of [ratecards.js] and the
    properties of the markup they write.  The script is a classic
    (sloppy-mode) browser script: each renderer builds a template literal
    and assigns it to [container.innerHTML]; [renderDedicatedRateCard]
    also starts a [fetch] whose promise chain only logs.

    The browser is modelled as a [Page] (the strings assigned to the
    elements' [innerHTML], the console, the requests issued, the rejections
    nobody handled) plus a
    queue of pending promise chains, which the event loop settles after
    the synchronous call has returned, against a [Host] that answers the
    requests. *)

From Stdlib Require Import Ascii String.
From stdpp Require Import base strings list gmap.

Local Open Scope string_scope.
Local Open Scope list_scope.

(** ** JavaScript values and errors *)

(** Elements are opaque handles into the page. *)
Definition Handle := positive.

(** What a caller can pass as [container]. *)
Inductive JsValue :=
  | VUndefined
  | VNull
  | VElement (h : Handle).

Inductive JsError :=
  | TypeError (msg : string)
  | SyntaxError (msg : string)
  | DOMException (name : string).

#[local] Set Warnings "-register-all".

(** Decoded JSON, as [Response.json()] resolves to. *)
Inductive JSON :=
  | JNull
  | JBool (b : bool)
  | JNumber (n : Z)
  | JString (s : string)
  | JArray (items : list JSON)
  | JObject (fields : list (string * JSON)).

(** An argument of [console.log]: the script logs a decoded payload in its
    second [then] and the rejection reason in its [catch]. *)
Inductive LogArg :=
  | LogJson (v : JSON)
  | LogError (e : JsError).

(** Outcome of a synchronous call. *)
Inductive Completion (A : Type) :=
  | Normal (a : A)
  | Throw (e : JsError).
Arguments Normal {A} a.
Arguments Throw {A} e.

(** Outcome of a promise. *)
Inductive Settled (A : Type) :=
  | Fulfilled (a : A)
  | Rejected (e : JsError).
Arguments Fulfilled {A} a.
Arguments Rejected {A} e.

(** ** The page and the host *)

Record Page := mkPage {
  dom : gmap Handle string;     (* string last assigned to innerHTML, per element *)
  console : list LogArg;        (* console.log calls, oldest first *)
  requests : list string;       (* urls given to fetch, oldest first *)
  unhandled : list JsError      (* rejections no reaction handled *)
}.

Record Response := mkResponse {
  status : Z;
  body : string
}.

(** The outside world: what a GET of a url settles to, and what decoding a
    body as JSON settles to. *)
Record Host := mkHost {
  http_get : string -> Settled Response;
  json_parse : string -> Settled JSON
}.

(** A promise is a deferred computation over the page, settled by the
    event loop. *)
Definition Promise (A : Type) : Type := Host -> Page -> Settled A * Page.

Record World := mkWorld {
  page : Page;
  microtasks : list (Promise unit)   (* pending promise chains, oldest first *)
}.

(** Synchronous code threads the world and may throw. *)
Definition Js (A : Type) : Type := World -> Completion A * World.

Definition ret {A} (a : A) : Js A := fun w => (Normal a, w).

Definition throw {A} (e : JsError) : Js A := fun w => (Throw e, w).

Definition bind {A B} (m : Js A) (k : A -> Js B) : Js B :=
  fun w =>
    match m w with
    | (Normal a, w') => k a w'
    | (Throw e, w') => (Throw e, w')
    end.

Notation "'let*' x ':=' m 'in' k" := (bind m (fun x => k))
  (at level 10, x name, m at level 100, k at level 200).
Notation "'do' m 'in' k" := (bind m (fun _ => k))
  (at level 10, m at level 100, k at level 200).

(** ** Host operations used by the script *)

(** [target.innerHTML = markup].  A property write on [null] or [undefined]
    throws a TypeError; on an element it replaces the content.  The page
    records the string assigned; what the element holds afterwards, read
    back, depends on the kind of element and is given by [read_back]. *)
Definition set_innerHTML (target : JsValue) (markup : string) : Js unit :=
  match target with
  | VElement h =>
      fun w =>
        let p := page w in
        (Normal tt,
         mkWorld (mkPage (<[h := markup]> (dom p)) (console p) (requests p)
                         (unhandled p))
                 (microtasks w))
  | VNull => throw (TypeError "Cannot set properties of null (setting 'innerHTML')")
  | VUndefined =>
      throw (TypeError "Cannot set properties of undefined (setting 'innerHTML')")
  end.

(** [console.log(x)] inside a promise reaction. *)
Definition console_log (x : LogArg) : Promise unit :=
  fun _ p =>
    (Fulfilled tt,
     mkPage (dom p) (console p ++ [x]) (requests p) (unhandled p)).

(** [fetch(url)]: the request is issued at once; the promise settles later
    to whatever the host answers.  [fetch] never throws synchronously. *)
Definition fetch (url : string) : Js (Promise Response) :=
  fun w =>
    let p := page w in
    (Normal (fun host q => (http_get host url, q)),
     mkWorld (mkPage (dom p) (console p) (requests p ++ [url]) (unhandled p))
             (microtasks w)).

(** [response.json()] *)
Definition Response_json (r : Response) : Promise JSON :=
  fun host p => (json_parse host (body r), p).

(** [p.then(f)] *)
Definition then_ {A B} (p : Promise A) (f : A -> Promise B) : Promise B :=
  fun host q =>
    match p host q with
    | (Fulfilled a, q') => f a host q'
    | (Rejected e, q') => (Rejected e, q')
    end.

(** [p.catch(g)] *)
Definition catch_ {A} (p : Promise A) (g : JsError -> Promise A) : Promise A :=
  fun host q =>
    match p host q with
    | (Fulfilled a, q') => (Fulfilled a, q')
    | (Rejected e, q') => g e host q'
    end.

(** An expression statement whose value is a promise: the value is dropped,
    the chain stays pending. *)
Definition pending (p : Promise unit) : Js unit :=
  fun w => (Normal tt, mkWorld (page w) (microtasks w ++ [p])).

(** ** The event loop *)

Definition run_job (host : Host) (p : Page) (job : Promise unit) : Page :=
  match job host p with
  | (Fulfilled _, p') => p'
  | (Rejected e, p') =>
      mkPage (dom p') (console p') (requests p') (unhandled p' ++ [e])
  end.

(** Settle every pending chain, oldest first. *)
Definition run_microtasks (host : Host) (w : World) : World :=
  mkWorld (fold_left (run_job host) (microtasks w) (page w)) [].

(** ** The markup literals *)

Definition dquote : string := String (Ascii.ascii_of_nat 34) EmptyString.

(** A literal of the script, given as its pieces between double quotes. *)
Definition quoted (pieces : list string) : string := String.concat dquote pieces.

(** [const header] of [renderProjectsRateCard] (556 characters). *)
Definition renderProjectsRateCard_header : string :=
  quoted
    [ "<thead><tr><th rowspan="; "2";
      ">#</th><th rowspan="; "2";
      ">Customer</th><th rowspan="; "2";
      ">Region</th><th rowspan="; "2";
      ">Country</th><th rowspan="; "2";
      ">Supplier</th><th rowspan="; "2";
      ">Currency</th><th rowspan="; "2";
      ">Entity</th><th rowspan="; "2";
      ">Payment</th><th colspan="; "5";
      ">Short Term (Up to 3 Months)</th><th colspan="; "5";
      ">Long Term (more than 3 Months) </th><th rowspan="; "2";
      ">Status</th><th rowspan="; "2";
      ">Action</th></tr><tr><th>Band 0</th><th>Band 1</th><th>Band 2</th><th>Band 3</th><th>Band 4</th><th>Band 0</th><th>Band 1</th><th>Band 2</th><th>Band 3</th><th>Band 4</th></tr></thead>" ].

(** [const header] of [renderDispatchRateCard] (527 characters). *)
Definition renderDispatchRateCard_header : string :=
  quoted
    [ "<thead><tr><th rowspan="; "2";
      ">#</th><th rowspan="; "2";
      ">Customer</th><th rowspan="; "2";
      ">Region</th><th rowspan="; "2";
      ">Country</th><th rowspan="; "2";
      ">Supplier</th><th rowspan="; "2";
      ">Currency</th><th rowspan="; "2";
      ">Entity</th><th rowspan="; "2";
      ">Payment</th><th colspan="; "6";
      ">Dispatch Tickets (incident) </th><th colspan="; "3";
      ">Dispatch Ticket (IMAC) </th><th rowspan="; "2";
      ">Status</th><th rowspan="; "2";
      ">Action</th></tr><tr><th>4 Hours</th><th>SBD</th><th>NBD</th><th>2 BD</th><th>3 BD</th><th>Additional Hour</th><th>2BD</th><th>3 BD</th><th>4 BD</th></tr></thead>" ].

(** [const header] of [renderScheduledRateCard] (480 characters). *)
Definition renderScheduledRateCard_header : string :=
  quoted
    [ "<thead><tr><th rowspan="; "2";
      ">#</th><th rowspan="; "2";
      ">Customer</th><th rowspan="; "2";
      ">Region</th><th rowspan="; "2";
      ">Country</th><th rowspan="; "2";
      ">Supplier</th><th rowspan="; "2";
      ">Currency</th><th rowspan="; "2";
      ">Entity</th><th rowspan="; "2";
      ">Payment</th><th colspan="; "3";
      ">Full Day Visit (8hrs)</th><th colspan="; "3";
      ">1/2 Day Visit (4hrs) </th><th rowspan="; "2";
      ">Status</th><th rowspan="; "2";
      ">Action</th></tr><tr><th>Band 0</th><th>Band 1</th><th>Band 2</th><th>Band 0</th><th>Band 1</th><th>Band 2</th></tr></thead>" ].

(** [const header] of [renderDedicatedRateCard] (586 characters). *)
Definition renderDedicatedRateCard_header : string :=
  quoted
    [ "<thead><tr><th rowspan="; "2";
      ">#</th><th rowspan="; "2";
      ">Customer</th><th rowspan="; "2";
      ">Region</th><th rowspan="; "2";
      ">Country</th><th rowspan="; "2";
      ">Supplier</th><th rowspan="; "2";
      ">Currency</th><th rowspan="; "2";
      ">Entity</th><th rowspan="; "2";
      ">Payment</th><th colspan="; "2";
      ">Band 0</th><th colspan="; "2";
      ">Band 1</th><th colspan="; "2";
      ">Band 2</th><th colspan="; "2";
      ">Band 3</th><th colspan="; "2";
      ">Band 4</th><th rowspan="; "2";
      ">Status</th><th rowspan="; "2";
      ">Action</th></tr><tr><th>With</th><th>Without</th><th>With</th><th>Without</th><th>With</th><th>Without</th><th>With</th><th>Without</th><th>With</th><th>Without</th></tr></thead>" ].

(** ** The four renderers *)

Definition renderProjectsRateCard (url : string) (container : JsValue) : Js unit :=
  let header := renderProjectsRateCard_header in
  set_innerHTML container ("<table>" +:+ header +:+ "<tbody></tbody></table>").

Definition renderDispatchRateCard (url : string) (container : JsValue) : Js unit :=
  let header := renderDispatchRateCard_header in
  set_innerHTML container ("<table>" +:+ header +:+ "<tbody></tbody></table>").

Definition renderScheduledRateCard (url : string) (container : JsValue) : Js unit :=
  let header := renderScheduledRateCard_header in
  set_innerHTML container ("<table>" +:+ header +:+ "<tbody></tbody></table>").

Definition renderDedicatedRateCard (url : string) (container : JsValue) : Js unit :=
  let header := renderDedicatedRateCard_header in
  let* response := fetch url in
  do pending
       (catch_
          (then_ (then_ response (fun val => Response_json val))
                 (fun val => console_log (LogJson val)))
          (fun e => console_log (LogError e))) in
  set_innerHTML container ("<table>" +:+ header +:+ "<tbody></tbody></table>").

(** The four entry points, by rate-card category. *)
Inductive Category := Projects | Dispatch | Scheduled | Dedicated.

Definition renderer (c : Category) : string -> JsValue -> Js unit :=
  match c with
  | Projects => renderProjectsRateCard
  | Dispatch => renderDispatchRateCard
  | Scheduled => renderScheduledRateCard
  | Dedicated => renderDedicatedRateCard
  end.

Definition header_of (c : Category) : string :=
  match c with
  | Projects => renderProjectsRateCard_header
  | Dispatch => renderDispatchRateCard_header
  | Scheduled => renderScheduledRateCard_header
  | Dedicated => renderDedicatedRateCard_header
  end.

(** The content a renderer leaves in an element, as the string assigned. *)
Definition content_after {A} (r : Completion A * World) (h : Handle) : option string :=
  dom (page r.2) !! h.

(** ** Reading markup back

    A strict reader for the fragment of HTML the script writes: elements
    with double-quoted attributes, text, and matching close tags. *)

Inductive Node :=
  | NText (text : string)
  | NElem (tag : string) (attrs : list (string * string)) (kids : list Node).

Inductive Token :=
  | TOpen (tag : string) (attrs : list (string * string))
  | TClose (tag : string)
  | TText (text : string).

(** [s.split(c)] *)
Fixpoint split_on (c : ascii) (s : string) : list string :=
  match s with
  | EmptyString => [EmptyString]
  | String x rest =>
      let l := split_on c rest in
      if Ascii.eqb x c then EmptyString :: l
      else match l with
           | hd :: tl => String x hd :: tl
           | [] => [String x EmptyString]
           end
  end.

(** [name="value"] *)
Definition parse_attr (s : string) : option (string * string) :=
  match split_on "="%char s with
  | [name; value] =>
      match split_on (Ascii.ascii_of_nat 34) value with
      | [EmptyString; v; EmptyString] => Some (name, v)
      | _ => None
      end
  | _ => None
  end.

(** The text between [<] and [>]. *)
Definition parse_tag (inner : string) : option Token :=
  match inner with
  | String "/"%char name => Some (TClose name)
  | _ =>
      match split_on " "%char inner with
      | name :: raw => attrs ← mapM parse_attr raw; Some (TOpen name attrs)
      | [] => None
      end
  end.

Definition flush_text (acc : string) (toks : list Token) : list Token :=
  match acc with
  | EmptyString => toks
  | _ => TText (String.rev acc) :: toks
  end.

(** [acc] holds the characters of the current tag or text run, newest
    first. *)
Fixpoint lex (s : string) (in_tag : bool) (acc : string) : option (list Token) :=
  match s with
  | EmptyString => if in_tag then None else Some (flush_text acc [])
  | String c rest =>
      if Ascii.eqb c "<"%char then
        if in_tag then None
        else toks ← lex rest true EmptyString; Some (flush_text acc toks)
      else if (Ascii.eqb c ">"%char && in_tag)%bool then
        tok ← parse_tag (String.rev acc);
        toks ← lex rest false EmptyString;
        Some (tok :: toks)
      else lex rest in_tag (String c acc)
  end.

(** [stack] holds the open elements, innermost first, each with the
    children its parent had collected before it opened; [kids] holds the
    children of the innermost open element, newest first. *)
Fixpoint build (toks : list Token)
    (stack : list (string * list (string * string) * list Node))
    (kids : list Node) : option (list Node) :=
  match toks with
  | [] => match stack with [] => Some (rev kids) | _ :: _ => None end
  | TText t :: rest => build rest stack (NText t :: kids)
  | TOpen tag attrs :: rest => build rest ((tag, attrs, kids) :: stack) []
  | TClose tag :: rest =>
      match stack with
      | (tag', attrs, outer) :: stack' =>
          if String.eqb tag tag'
          then build rest stack' (NElem tag attrs (rev kids) :: outer)
          else None
      | [] => None
      end
  end.

Definition parse_html (markup : string) : option (list Node) :=
  toks ← lex markup false EmptyString; build toks [] [].

(** ** Header tables *)

Record Cell := mkCell {
  label : string;
  rowspan : option nat;
  colspan : option nat
}.

Record Table := mkTable {
  head_rows : list (list Cell);
  body_rows : list Node
}.

Definition digit_of (c : ascii) : option nat :=
  let n := Ascii.nat_of_ascii c in
  if ((48 <=? n) && (n <=? 57))%nat then Some (n - 48)%nat else None.

Fixpoint number_of (s : string) (acc : nat) : option nat :=
  match s with
  | EmptyString => Some acc
  | String c rest => d ← digit_of c; number_of rest (10 * acc + d)%nat
  end.

(** A span attribute: absent, or a decimal number. *)
Definition span_of (name : string) (attrs : list (string * string))
    : option (option nat) :=
  match List.find (fun kv => String.eqb kv.1 name) attrs with
  | None => Some None
  | Some (_, EmptyString) => None
  | Some (_, v) => n ← number_of v 0%nat; Some (Some n)
  end.

Definition cell_of (n : Node) : option Cell :=
  match n with
  | NElem "th" attrs [NText l] =>
      rs ← span_of "rowspan" attrs;
      cs ← span_of "colspan" attrs;
      Some (mkCell l rs cs)
  | _ => None
  end.

Definition row_of (n : Node) : option (list Cell) :=
  match n with
  | NElem "tr" [] cells => mapM cell_of cells
  | _ => None
  end.

Definition table_of (nodes : list Node) : option Table :=
  match nodes with
  | [NElem "table" [] [NElem "thead" [] rows; NElem "tbody" [] brows]] =>
      rs ← mapM row_of rows; Some (mkTable rs brows)
  | _ => None
  end.

Definition parse_table (markup : string) : option Table :=
  nodes ← parse_html markup; table_of nodes.

(** Columns a row claims through its [colspan] cells. *)
Definition colspan_sum (row : list Cell) : nat :=
  foldr (fun c n => (default 0 (colspan c) + n)%nat) 0%nat row.

(** The whole markup a renderer assigns: its template literal with
    [header] filled in. *)
Definition markup_of (c : Category) : string :=
  "<table>" +:+ header_of c +:+ "<tbody></tbody></table>".

(** The promise chain [renderDedicatedRateCard] leaves pending. *)
Definition dedicated_chain (url : string) : Promise unit :=
  catch_
    (then_ (then_ (fun host q => (http_get host url, q))
                  (fun val => Response_json val))
           (fun val => console_log (LogJson val)))
    (fun e => console_log (LogError e)).

(** What the chain logs, by what the host answers. *)
Definition logged (host : Host) (url : string) : LogArg :=
  match http_get host url with
  | Rejected e => LogError e
  | Fulfilled r =>
      match json_parse host (body r) with
      | Rejected e => LogError e
      | Fulfilled v => LogJson v
      end
  end.

Definition fetches (c : Category) (url : string) : list string :=
  match c with Dedicated => [url] | _ => [] end.

Definition chains (c : Category) (url : string) : list (Promise unit) :=
  match c with Dedicated => [dedicated_chain url] | _ => [] end.

(** A world with nothing pending. *)
Definition quiescent (p : Page) : World := mkWorld p [].

(** Cells of a row that carry a [colspan]. *)
Definition groups (row : list Cell) : list Cell :=
  filter (fun c => is_Some (colspan c)) row.

(** Row-2 cell counts and row-1 spans per category, as the header
    definitions are documented. *)
Definition sub_columns (c : Category) : nat :=
  match c with
  | Projects => 10
  | Dispatch => 9
  | Scheduled => 6
  | Dedicated => 10
  end.

Definition group_spans (c : Category) : list nat :=
  match c with
  | Projects => [5; 5]
  | Dispatch => [6; 3]
  | Scheduled => [3; 3]
  | Dedicated => [2; 2; 2; 2; 2]
  end.


(** The columns every category starts and ends with: header cells that
    span both rows. *)
Definition spanning (l : string) : Cell := mkCell l (Some 2) None.

Definition generic_columns : list Cell :=
  map spanning
    ["#"; "Customer"; "Region"; "Country"; "Supplier"; "Currency"; "Entity";
     "Payment"].

Definition closing_columns : list Cell := map spanning ["Status"; "Action"].

(** A row-1 cell heading [n] sub-columns. *)
Definition group (l : string) (n : nat) : Cell := mkCell l None (Some n).

(** A row-2 cell. *)
Definition plain (l : string) : Cell := mkCell l None None.

(** ["Band 0"; ...; "Band n-1"] *)
Definition band_labels (n : nat) : list string :=
  map (fun i => "Band " +:+ String (ascii_of_nat (48 + i)) EmptyString) (seq 0 n).




(** A page whose only element is the empty container [h]. *)
Definition empty_container (h : Handle) : World :=
  quiescent (mkPage {[ h := EmptyString ]} [] [] []).

(** A renderer that ignores its [url]: any two urls give the same outcome
    and the same world, and the call neither issues a request, nor logs, nor
    leaves a promise pending. *)
Definition url_unused (f : string -> JsValue -> Js unit) : Prop :=
  forall (u1 u2 : string) (container : JsValue) (w : World),
    f u1 container w = f u2 container w /\
    requests (page (f u1 container w).2) = requests (page w) /\
    console (page (f u1 container w).2) = console (page w) /\
    microtasks (f u1 container w).2 = microtasks w.

(** Sample hosts: one serves a JSON array at every url, one serves an HTML
    error page, one is offline. *)
Definition json_host : Host :=
  mkHost (fun _ => Fulfilled (mkResponse 200 "[]"))
         (fun b => if String.eqb b "[]" then Fulfilled (JArray [])
                   else Rejected (SyntaxError "Unexpected token")).

Definition html_host : Host :=
  mkHost (fun _ => Fulfilled (mkResponse 404 "<html>Not Found</html>"))
         (json_parse json_host).

Definition offline_host : Host :=
  mkHost (fun _ => Rejected (TypeError "Failed to fetch"))
         (json_parse json_host).

Definition blank_page : Page := mkPage ∅ [] [] [].

(** ** Sequences of calls *)

(** One call of a renderer on an element of the page. *)
Record Call := mkCall {
  category : Category;
  locator : string;
  target : Handle
}.

(** The calls made one after the other, each from the world the previous one
    left. *)
Definition render_all (calls : list Call) (w : World) : World :=
  fold_left
    (fun w k => (renderer (category k) (locator k) (VElement (target k)) w).2)
    calls w.

(** The urls the calls hand to [fetch], in call order. *)
Definition fetched (calls : list Call) : list string :=
  flat_map (fun k => fetches (category k) (locator k)) calls.

(** The elements after the calls have each written their container. *)
Definition written (calls : list Call) (d : gmap Handle string)
    : gmap Handle string :=
  fold_left (fun d k => <[target k := markup_of (category k)]> d) calls d.

(** The chains the calls leave pending, in call order. *)
Definition left_pending (calls : list Call) : list (Promise unit) :=
  flat_map (fun k => chains (category k) (locator k)) calls.

(** A host that answers every url with status 500 and a JSON array. *)
Definition failing_json_host : Host :=
  mkHost (fun _ => Fulfilled (mkResponse 500 "[]")) (json_parse json_host).

(** ** Grid of a header *)

(** Columns a row occupies with its own cells. *)
Definition row_width (row : list Cell) : nat :=
  foldr (fun c n => (default 1 (colspan c) + n)%nat) 0%nat row.

(** Columns of the next row taken by cells that span into it. *)
Definition carried (row : list Cell) : nat :=
  row_width (filter (fun c => rowspan c = Some 2) row).

Definition is_group (c : Cell) : bool :=
  match rowspan c, colspan c with
  | None, Some _ => true
  | _, _ => false
  end.

Definition is_plain (c : Cell) : bool :=
  match rowspan c, colspan c with
  | None, None => true
  | _, _ => false
  end.

(** ** Vocabulary of the markup *)

Definition table_tags : list string := ["table"; "thead"; "tbody"; "tr"; "th"].

Definition member (s : string) (l : list string) : bool :=
  existsb (String.eqb s) l.

Definition span_attr (kv : string * string) : bool :=
  member kv.1 ["rowspan"; "colspan"] &&
  match kv.2 with
  | EmptyString => false
  | v => bool_decide (is_Some (number_of v 0))
  end.

(** Only table elements, and on them only numeric span attributes. *)
Definition token_ok (t : Token) : bool :=
  match t with
  | TOpen tag attrs => member tag table_tags && forallb span_attr attrs
  | TClose tag => member tag table_tags
  | TText _ => true
  end.

(** ** Reading [innerHTML] back

    The setter of [innerHTML] does not keep the string it is given: it
    parses it as a fragment in the context of the element assigned to and
    the getter serialises the children that resulted. What follows is the
    part of the HTML tree construction that table markup exercises, for a
    [div] and for a [table] as context element: table, section, row and cell
    tags with plain attributes, and plain text inside cells or at the top.
    Anything else is reported as not covered ([None]). *)

Inductive ElementKind := DivElement | TableElement.

Inductive InsertionMode := InBody | InTable | InTableBody | InRow | InCell.

(** The insertion mode a fragment starts in. *)
Definition initial_mode (k : ElementKind) : InsertionMode :=
  match k with
  | DivElement => InBody
  | TableElement => InTable
  end.

(** Printable ASCII other than [&], [<] and [>]: characters the tokenizer
    passes through and the serialiser does not escape. *)
Definition plain_char (c : ascii) : bool :=
  let n := nat_of_ascii c in
  (32 <=? n)%nat && (n <=? 126)%nat &&
  negb (Ascii.eqb c "&"%char || Ascii.eqb c "<"%char || Ascii.eqb c ">"%char).

Definition plain_text (s : string) : bool :=
  forallb plain_char (list_ascii_of_string s).

Definition lower_letter (c : ascii) : bool :=
  let n := nat_of_ascii c in (97 <=? n)%nat && (n <=? 122)%nat.

Definition lower_name (s : string) : bool :=
  negb (String.eqb s EmptyString) && forallb lower_letter (list_ascii_of_string s).

Fixpoint distinct (names : list string) : bool :=
  match names with
  | [] => true
  | n :: rest => negb (existsb (String.eqb n) rest) && distinct rest
  end.

(** Attributes the parser keeps as they are written. *)
Definition plain_attrs (attrs : list (string * string)) : bool :=
  forallb (fun kv => lower_name kv.1 && plain_text kv.2) attrs &&
  distinct (map fst attrs).

(** An open element: its tag and attributes, and the children its parent
    had before it opened, newest first. *)
Definition Frame : Type := string * list (string * string) * list Node.

Definition on_stack (tag : string) (stack : list Frame) : bool :=
  existsb (fun f => String.eqb f.1.1 tag) stack.

Definition current_is (tag : string) (stack : list Frame) : bool :=
  match stack with
  | f :: _ => String.eqb f.1.1 tag
  | [] => false
  end.

(** Pop the current node into its parent. *)
Definition pop_current (stack : list Frame) (kids : list Node)
    : option (list Frame * list Node) :=
  match stack with
  | (tag, attrs, outer) :: stack' => Some (stack', NElem tag attrs (rev kids) :: outer)
  | [] => None
  end.

(** End of input: every element still open stays in the tree. *)
Fixpoint close_all (stack : list Frame) (kids : list Node) : list Node :=
  match stack with
  | [] => rev kids
  | (tag, attrs, outer) :: stack' =>
      close_all stack' (NElem tag attrs (rev kids) :: outer)
  end.

(** Tree construction. [stack] holds the open elements below the root,
    innermost first; [kids] the children of the current node, newest first.
    - in body: text is inserted; [<table>] opens a table;
    - in table: [<table>] and [</table>] are ignored when no table is open
      (the context element is not on the stack); a section tag opens a
      section; [</table>] closes the open table and returns to the body;
    - in table body: [<tr>] opens a row; the end tag of the current section
      closes it;
    - in row: a cell tag opens a cell; [</tr>] closes the row;
    - in cell: text is inserted; the end tag of the current cell closes it. *)
Fixpoint construct (toks : list Token) (mode : InsertionMode)
    (stack : list Frame) (kids : list Node) : option (list Node) :=
  match toks with
  | [] => Some (close_all stack kids)
  | TText t :: rest =>
      match mode with
      | InBody | InCell =>
          if plain_text t then construct rest mode stack (NText t :: kids)
          else None
      | _ => None
      end
  | TOpen tag attrs :: rest =>
      if negb (plain_attrs attrs) then None else
      match mode with
      | InBody =>
          if String.eqb tag "table"
          then construct rest InTable ((tag, attrs, kids) :: stack) []
          else None
      | InTable =>
          if String.eqb tag "table" then
            if on_stack "table" stack then None
            else construct rest InTable stack kids
          else if member tag ["thead"; "tbody"; "tfoot"]
          then construct rest InTableBody ((tag, attrs, kids) :: stack) []
          else None
      | InTableBody =>
          if String.eqb tag "tr"
          then construct rest InRow ((tag, attrs, kids) :: stack) []
          else None
      | InRow =>
          if member tag ["th"; "td"]
          then construct rest InCell ((tag, attrs, kids) :: stack) []
          else None
      | InCell => None
      end
  | TClose tag :: rest =>
      match mode with
      | InBody => None
      | InTable =>
          if String.eqb tag "table" then
            if on_stack "table" stack then
              if current_is "table" stack then
                match pop_current stack kids with
                | Some (stack', kids') => construct rest InBody stack' kids'
                | None => None
                end
              else None
            else construct rest InTable stack kids
          else None
      | InTableBody =>
          if member tag ["thead"; "tbody"; "tfoot"] && current_is tag stack then
            match pop_current stack kids with
            | Some (stack', kids') => construct rest InTable stack' kids'
            | None => None
            end
          else None
      | InRow =>
          if String.eqb tag "tr" && current_is tag stack then
            match pop_current stack kids with
            | Some (stack', kids') => construct rest InTableBody stack' kids'
            | None => None
            end
          else None
      | InCell =>
          if member tag ["th"; "td"] && current_is tag stack then
            match pop_current stack kids with
            | Some (stack', kids') => construct rest InRow stack' kids'
            | None => None
            end
          else None
      end
  end.

Definition serialize_attrs (attrs : list (string * string)) : string :=
  String.concat EmptyString
    (map (fun kv => " " +:+ kv.1 +:+ "=" +:+ dquote +:+ kv.2 +:+ dquote) attrs).

(** Serialisation of a node whose text and attribute values are plain. *)
Fixpoint serialize (n : Node) : string :=
  match n with
  | NText t => t
  | NElem tag attrs kids =>
      "<" +:+ tag +:+ serialize_attrs attrs +:+ ">"
      +:+ (fix all (l : list Node) : string :=
             match l with
             | [] => EmptyString
             | k :: rest => serialize k +:+ all rest
             end) kids
      +:+ "</" +:+ tag +:+ ">"
  end.

(** What [element.innerHTML] reads after [element.innerHTML = markup], for
    an element of kind [k]. *)
Definition read_back (k : ElementKind) (markup : string) : option string :=
  toks ← lex markup false EmptyString;
  nodes ← construct toks (initial_mode k) [] [];
  Some (String.concat EmptyString (map serialize nodes)).

(** What the container [h], an element of kind [k], holds after a call. *)
Definition held_after {A} (r : Completion A * World) (h : Handle)
    (k : ElementKind) : option string :=
  content_after r h ≫= read_back k.

(** The call returns no value and leaves the container of kind [k] holding
    a table with a two-row head and an empty body. *)
Definition holds_wrapped_table (c : Category) (url : string) (h : Handle)
    (k : ElementKind) (w : World) : Prop :=
  (renderer c url (VElement h) w).1 = Normal tt /\
  exists inner row1 row2,
    held_after (renderer c url (VElement h) w) h k =
      Some ("<table><thead>" +:+ inner +:+ "</thead><tbody></tbody></table>") /\
    parse_html inner = Some [NElem "tr" [] row1; NElem "tr" [] row2].

(** ** Settling in completion order *)



(** * Properties *)

#[local] Arguments markup_of : simpl never.
#[local] Arguments header_of : simpl never.

(** ** What a call does to the world *)

(** The lengths of the four literals, as in the script. *)
Lemma header_lengths :
  map (fun c => String.length (header_of c)) [Projects; Dispatch; Scheduled; Dedicated]
  = [556; 527; 480; 586].
Proof. vm_compute. reflexivity. Qed.

(** Joining the pieces of a string split at [c] gives the string back, so a
    literal is determined by its pieces between double quotes. *)
Lemma split_on_nonempty (c : ascii) (s : string) : split_on c s ≠ [].
Proof.
  destruct s as [|x rest]; cbn; [done|].
  destruct (Ascii.eqb x c); [done|]. by destruct (split_on c rest).
Qed.

Lemma concat_cons (sep x : string) (l : list string) :
  l ≠ [] ->
  String.concat sep (x :: l) = x +:+ sep +:+ String.concat sep l.
Proof. by destruct l. Qed.

Lemma concat_split_on (c : ascii) (s : string) :
  String.concat (String c EmptyString) (split_on c s) = s.
Proof.
  induction s as [|x rest IH]; [reflexivity|].
  cbn [split_on]. pose proof (split_on_nonempty c rest) as Hne.
  destruct (Ascii.eqb_spec x c) as [->|Hxc].
  - rewrite concat_cons, IH by done. reflexivity.
  - destruct (split_on c rest) as [|hd tl]; [done|].
    destruct tl as [|hd' tl'].
    + cbn in IH |- *. by rewrite IH.
    + rewrite concat_cons in IH |- * by done.
      rewrite <- IH. reflexivity.
Qed.

Lemma quoted_split (s : string) : quoted (split_on (ascii_of_nat 34) s) = s.
Proof. apply concat_split_on. Qed.

Lemma render_element (c : Category) (url : string) (h : Handle) (w : World) :
  renderer c url (VElement h) w =
  (Normal tt,
   mkWorld (mkPage (<[h := markup_of c]> (dom (page w)))
                   (console (page w))
                   (requests (page w) ++ fetches c url)
                   (unhandled (page w)))
           (microtasks w ++ chains c url)).
Proof.
  destruct w as [[d l r u] m]; destruct c; cbn [fetches chains];
    rewrite ?app_nil_r; reflexivity.
Qed.

Lemma render_content (c : Category) (url : string) (h : Handle) (w : World) :
  content_after (renderer c url (VElement h) w) h = Some (markup_of c).
Proof.
  rewrite render_element. unfold content_after. cbn.
  apply lookup_insert_eq.
Qed.

Lemma run_dedicated_chain (host : Host) (url : string) (p : Page) :
  run_job host p (dedicated_chain url) =
  mkPage (dom p) (console p ++ [logged host url]) (requests p) (unhandled p).
Proof.
  unfold run_job, dedicated_chain, catch_, then_, Response_json, console_log, logged.
  destruct (http_get host url) as [r|e]; [|reflexivity].
  destruct (json_parse host (body r)) as [v|e]; reflexivity.
Qed.

(** The parsed header of each category. *)
Lemma parse_markup_rows (c : Category) :
  exists top sub,
    parse_table (markup_of c) = Some (mkTable [top; sub] []) /\
    omap colspan top = group_spans c /\
    length sub = sub_columns c.
Proof.
  destruct c;
    (eexists; eexists; split; [vm_compute; reflexivity|]; split; vm_compute; reflexivity).
Qed.

Lemma colspan_sum_omap (row : list Cell) :
  colspan_sum row = foldr Nat.add 0%nat (omap colspan row).
Proof.
  induction row as [|[l rs [n|]] row IH]; cbn; [done| |done].
  by rewrite <- IH.
Qed.

(** ** C1: column alignment *)

(** C1. For each of the four renderers, in the markup it writes into the
    container the colspans of the row-1 cells that carry one (Projects 5, 5;
    Dispatch 6, 3; Scheduled 3, 3; Dedicated 2, 2, 2, 2, 2) add up to the
    number of cells of row 2 (10, 9, 6 and 10). *)
Theorem column_alignment (c : Category) (url : string) (h : Handle) (w : World) :
  exists markup top sub,
    content_after (renderer c url (VElement h) w) h = Some markup /\
    head_rows <$> parse_table markup = Some [top; sub] /\
    omap colspan top = group_spans c /\
    length sub = sub_columns c /\
    colspan_sum top = length sub.
Proof.
  destruct (parse_markup_rows c) as (top & sub & Hp & Hs & Hl).
  exists (markup_of c), top, sub.
  split; [apply render_content|].
  split; [by rewrite Hp|].
  do 2 (split; [done|]).
  rewrite colspan_sum_omap, Hs, Hl. by destruct c.
Qed.

(** ** C2: the call replaces the container's content *)

Lemma markup_shape (c : Category) :
  exists inner row1 row2,
    markup_of c = "<table><thead>" +:+ inner +:+ "</thead><tbody></tbody></table>" /\
    parse_html inner = Some [NElem "tr" [] row1; NElem "tr" [] row2] /\
    parse_html (markup_of c) =
      Some [NElem "table" []
              [NElem "thead" [] [NElem "tr" [] row1; NElem "tr" [] row2];
               NElem "tbody" [] []]].
Proof.
  exists (String.substring 7 (String.length (header_of c) - 15) (header_of c)).
  destruct c;
    (eexists; eexists; split; [vm_compute; reflexivity|];
     split; vm_compute; reflexivity).
Qed.

Lemma read_back_div (c : Category) :
  read_back DivElement (markup_of c) = Some (markup_of c).
Proof. destruct c; vm_compute; reflexivity. Qed.

Lemma read_back_table (c : Category) :
  read_back TableElement (markup_of c) = Some (header_of c +:+ "<tbody></tbody>").
Proof. destruct c; vm_compute; reflexivity. Qed.

(** C2, for the string assigned and for the container kinds [div] and
    [table]. For every url and every element container, whatever it held,
    each of the four renderers returns normally with no value and assigns
    to [innerHTML] exactly [<table><thead>] two [tr] rows
    [</thead><tbody></tbody></table>], a string on which neither the url nor
    what the page held before has any influence. A [div] container then
    holds exactly that string, whatever it held before; a [table] container
    holds the head and the empty body without the [<table>] wrapper. *)
Theorem render_assigns_table_markup (c : Category) (url : string) (h : Handle)
    (w : World) :
  (renderer c url (VElement h) w).1 = Normal tt /\
  (exists inner row1 row2,
     content_after (renderer c url (VElement h) w) h =
       Some ("<table><thead>" +:+ inner +:+ "</thead><tbody></tbody></table>") /\
     parse_html inner = Some [NElem "tr" [] row1; NElem "tr" [] row2] /\
     parse_html ("<table><thead>" +:+ inner +:+ "</thead><tbody></tbody></table>") =
       Some [NElem "table" []
               [NElem "thead" [] [NElem "tr" [] row1; NElem "tr" [] row2];
                NElem "tbody" [] []]]) /\
  (forall (url' : string) (w' : World),
     content_after (renderer c url' (VElement h) w') h =
     content_after (renderer c url (VElement h) w) h) /\
  holds_wrapped_table c url h DivElement w /\
  (forall (url' : string) (w' : World),
     held_after (renderer c url' (VElement h) w') h DivElement =
     held_after (renderer c url (VElement h) w) h DivElement) /\
  held_after (renderer c url (VElement h) w) h TableElement =
    Some (header_of c +:+ "<tbody></tbody>").
Proof.
  destruct (markup_shape c) as (inner & row1 & row2 & Hm & Hi & Hp).
  assert (Hdiv : forall url' w',
             held_after (renderer c url' (VElement h) w') h DivElement =
             Some (markup_of c)).
  { intros url' w'. unfold held_after. rewrite render_content.
    exact (read_back_div c). }
  split; [by rewrite render_element|].
  split; [exists inner, row1, row2; by rewrite render_content, <- Hm|].
  split; [intros url' w'; by rewrite !render_content|].
  split.
  { split; [by rewrite render_element|].
    exists inner, row1, row2. by rewrite Hdiv, <- Hm. }
  split; [intros url' w'; by rewrite !Hdiv|].
  unfold held_after. rewrite render_content. exact (read_back_table c).
Qed.

(** C2 as it stands fails for a container that is itself a [table]: after
    the call it does not hold a string that starts with [<table>]. *)
Lemma table_container_loses_wrapper :
  ~ holds_wrapped_table Scheduled "/rate-cards/scheduled/" 1%positive
      TableElement (empty_container 1%positive).
Proof.
  intros (_ & inner & row1 & row2 & Hheld & _).
  unfold held_after in Hheld. rewrite (render_content Scheduled) in Hheld.
  change (read_back TableElement (markup_of Scheduled) =
          Some ("<table><thead>" +:+ inner +:+ "</thead><tbody></tbody></table>"))
    in Hheld.
  rewrite read_back_table in Hheld.
  apply (f_equal (fun held => String.get 2 (default EmptyString held))) in Hheld.
  vm_compute in Hheld. discriminate.
Qed.

(** ** C3: the Scheduled scenario *)

Lemma scheduled_table :
  parse_table (markup_of Scheduled) =
  Some (mkTable
          [ (generic_columns
               ++ [group "Full Day Visit (8hrs)" 3; group "1/2 Day Visit (4hrs) " 3]
               ++ closing_columns)%list;
            map plain (band_labels 3 ++ band_labels 3)%list ]
          []).
Proof. vm_compute. reflexivity. Qed.




(** ** C4: labels and column counts of Projects and Dedicated *)

Lemma projects_table :
  parse_table (markup_of Projects) =
  Some (mkTable
          [ (generic_columns
               ++ [group "Short Term (Up to 3 Months)" 5;
                   group "Long Term (more than 3 Months) " 5]
               ++ closing_columns)%list;
            map plain (band_labels 5 ++ band_labels 5)%list ]
          []).
Proof. vm_compute. reflexivity. Qed.

Lemma dedicated_table :
  parse_table (markup_of Dedicated) =
  Some (mkTable
          [ (generic_columns ++ map (fun l => group l 2) (band_labels 5)
               ++ closing_columns)%list;
            map plain (concat (replicate 5 ["With"; "Without"])) ]
          []).
Proof. vm_compute. reflexivity. Qed.

(** C4. The Projects header has exactly two pricing groups, labelled
    [Short Term ...] and [Long Term ...], of 5 band sub-columns each
    (Band 0 to Band 4 under each, 10 cells in row 2); the Dedicated header
    has exactly five groups, Band 0 to Band 4, each over a [With] and a
    [Without] sub-column (10 cells in row 2). *)
Theorem projects_and_dedicated_groups (url : string) (h : Handle) (w : World) :
  (exists markup top sub short long,
     content_after (renderProjectsRateCard url (VElement h) w) h = Some markup /\
     head_rows <$> parse_table markup = Some [top; sub] /\
     groups top = [group short 5; group long 5] /\
     short = "Short Term (Up to 3 Months)" /\
     long = "Long Term (more than 3 Months) " /\
     String.prefix "Short Term" short = true /\
     String.prefix "Long Term" long = true /\
     sub = map plain (band_labels 5 ++ band_labels 5)%list /\
     length sub = 10) /\
  (exists markup top sub,
     content_after (renderDedicatedRateCard url (VElement h) w) h = Some markup /\
     head_rows <$> parse_table markup = Some [top; sub] /\
     groups top = map (fun l => group l 2) ["Band 0"; "Band 1"; "Band 2"; "Band 3"; "Band 4"] /\
     sub = map plain (concat (replicate 5 ["With"; "Without"])) /\
     length sub = 10).
Proof.
  split.
  - exists (markup_of Projects). do 4 eexists.
    split; [apply (render_content Projects)|].
    split; [rewrite projects_table; reflexivity|].
    repeat split; vm_compute; reflexivity.
  - exists (markup_of Dedicated). do 2 eexists.
    split; [apply (render_content Dedicated)|].
    split; [rewrite dedicated_table; reflexivity|].
    repeat split; vm_compute; reflexivity.
Qed.

(** ** C5: the fetch chain logs once *)

(** Whatever the container, the Dedicated call issues the request and leaves
    the chain pending before it touches the container. *)
Lemma render_dedicated_world (url : string) (container : JsValue) (w : World) :
  exists d,
    (renderDedicatedRateCard url container w).2 =
    mkWorld (mkPage d (console (page w)) (requests (page w) ++ [url])
                    (unhandled (page w)))
            (microtasks w ++ [dedicated_chain url]).
Proof.
  destruct w as [[d l r u] m].
  destruct container; eexists; reflexivity.
Qed.

Lemma run_chains (host : Host) (c : Category) (url : string) (p : Page) :
  fold_left (run_job host) (chains c url) p =
  mkPage (dom p) (console p ++ map (fun _ => logged host url) (chains c url))
         (requests p) (unhandled p).
Proof.
  destruct p as [d l r u].
  destruct c; cbn [chains fold_left map]; rewrite ?app_nil_r; try reflexivity.
  apply run_dedicated_chain.
Qed.

Lemma dedicated_settled (host : Host) (url : string) (container : JsValue)
    (p : Page) :
  exists d,
    page (run_microtasks host
            (renderDedicatedRateCard url container (quiescent p)).2) =
    mkPage d (console p ++ [logged host url]) (requests p ++ [url]) (unhandled p).
Proof.
  destruct (render_dedicated_world url container (quiescent p)) as [d ->].
  exists d. unfold run_microtasks. cbn [microtasks page quiescent app fold_left].
  rewrite run_dedicated_chain. reflexivity.
Qed.

(** C5. Once the event loop has settled the call's promise chain: if the
    fetch of the url resolves to a response whose body decodes as JSON, the
    console has gained exactly the decoded value; if the fetch rejects, or
    the body does not decode, it has gained exactly the error; in every case
    no rejection is left unhandled, and the call itself, on an element,
    returns normally. *)
Theorem dedicated_logs_once (host : Host) (url : string) (container : JsValue)
    (p : Page) :
  let r := renderDedicatedRateCard url container (quiescent p) in
  let final := page (run_microtasks host r.2) in
  (forall resp v,
     http_get host url = Fulfilled resp ->
     json_parse host (body resp) = Fulfilled v ->
     console final = console p ++ [LogJson v]) /\
  (forall e,
     http_get host url = Rejected e ->
     console final = console p ++ [LogError e]) /\
  (forall resp e,
     http_get host url = Fulfilled resp ->
     json_parse host (body resp) = Rejected e ->
     console final = console p ++ [LogError e]) /\
  unhandled final = unhandled p /\
  (forall h, container = VElement h -> r.1 = Normal tt).
Proof.
  intros r final.
  destruct (dedicated_settled host url container p) as [d Hfinal].
  fold r in Hfinal. fold final in Hfinal. rewrite Hfinal. cbn [console unhandled].
  unfold logged.
  split; [intros resp v -> ->; reflexivity|].
  split; [intros e ->; reflexivity|].
  split; [intros resp e -> ->; reflexivity|].
  split; [reflexivity|].
  intros h ->. subst r. by rewrite (render_element Dedicated).
Qed.

Lemma dedicated_logs_once_witness :
  console (page (run_microtasks json_host
             (renderDedicatedRateCard "/rate-cards/dedicated/" (VElement 1%positive)
                (quiescent blank_page)).2))
    = [LogJson (JArray [])] /\
  console (page (run_microtasks offline_host
             (renderDedicatedRateCard "/rate-cards/dedicated/" (VElement 1%positive)
                (quiescent blank_page)).2))
    = [LogError (TypeError "Failed to fetch")] /\
  console (page (run_microtasks html_host
             (renderDedicatedRateCard "/rate-cards/dedicated/" (VElement 1%positive)
                (quiescent blank_page)).2))
    = [LogError (SyntaxError "Unexpected token")] /\
  (renderDedicatedRateCard "/rate-cards/dedicated/" (VElement 1%positive)
     (quiescent blank_page)).1 = Normal tt.
Proof.
  split; [|split; [|split]].
  - apply (dedicated_logs_once json_host "/rate-cards/dedicated/" (VElement 1%positive)
             blank_page)
      with (resp := mkResponse 200 "[]"); reflexivity.
  - apply (dedicated_logs_once offline_host "/rate-cards/dedicated/" (VElement 1%positive)
             blank_page); reflexivity.
  - apply (dedicated_logs_once html_host "/rate-cards/dedicated/" (VElement 1%positive)
             blank_page)
      with (resp := mkResponse 404 "<html>Not Found</html>"); reflexivity.
  - apply (dedicated_logs_once json_host "/rate-cards/dedicated/" (VElement 1%positive)
             blank_page) with (h := 1%positive); reflexivity.
Defined.

(** ** C6: rendering twice *)

(** C6. Calling the same renderer twice in a row on the same container
    leaves every element of the page, the container included, with the
    content one call leaves: the second call writes the same string over the
    first, and nothing accumulates. This still holds once the event loop has
    settled the pending chains. *)
Theorem render_twice (c : Category) (url : string) (h : Handle) (w : World) :
  let once := renderer c url (VElement h) w in
  let twice := renderer c url (VElement h) once.2 in
  twice.1 = Normal tt /\
  content_after twice h = content_after once h /\
  dom (page twice.2) = dom (page once.2) /\
  (forall host p,
     w = quiescent p ->
     dom (page (run_microtasks host twice.2)) =
     dom (page (run_microtasks host once.2))).
Proof.
  intros once twice. subst twice once.
  rewrite !render_element. cbn [fst snd page dom microtasks].
  split; [done|].
  split; [unfold content_after; cbn [snd page dom]; by rewrite insert_insert_eq|].
  split; [apply insert_insert_eq|].
  intros host p ->. unfold run_microtasks.
  cbn [page microtasks quiescent app dom console requests unhandled].
  rewrite fold_left_app, !run_chains. cbn [dom].
  apply insert_insert_eq.
Qed.

Lemma render_twice_witness :
  dom (page (run_microtasks json_host
        (renderer Dedicated "/rate-cards/dedicated/" (VElement 1%positive)
           (renderer Dedicated "/rate-cards/dedicated/" (VElement 1%positive)
              (quiescent blank_page)).2).2)) =
  dom (page (run_microtasks json_host
        (renderer Dedicated "/rate-cards/dedicated/" (VElement 1%positive)
           (quiescent blank_page)).2)).
Proof.
  apply (render_twice Dedicated "/rate-cards/dedicated/" 1%positive
           (quiescent blank_page)) with (p := blank_page).
  reflexivity.
Defined.

(** ** C7: the fetch outcome stays out of the page *)

(** C7. Whatever the host answers to the fetch (a payload, a failure, a body
    that is not JSON), once the chain has settled the container holds the
    fixed Dedicated header table with an empty body; two hosts leave pages
    that agree on every element, on the requests issued and on the unhandled
    rejections, and can differ only in the one console entry. *)
Theorem fetch_never_rendered (host1 host2 : Host) (url : string) (h : Handle)
    (p : Page) :
  let settled host :=
    page (run_microtasks host
            (renderDedicatedRateCard url (VElement h) (quiescent p)).2) in
  dom (settled host1) =
    <[h := "<table>" +:+ renderDedicatedRateCard_header
             +:+ "<tbody></tbody></table>"]> (dom p) /\
  body_rows <$> parse_table ("<table>" +:+ renderDedicatedRateCard_header
                               +:+ "<tbody></tbody></table>") = Some [] /\
  dom (settled host1) = dom (settled host2) /\
  requests (settled host1) = requests (settled host2) /\
  unhandled (settled host1) = unhandled (settled host2) /\
  console (settled host1) = console p ++ [logged host1 url] /\
  console (settled host2) = console p ++ [logged host2 url].
Proof.
  intros settled.
  assert (Hs : forall host,
             settled host =
             mkPage (<[h := markup_of Dedicated]> (dom p))
                    (console p ++ [logged host url]) (requests p ++ [url])
                    (unhandled p)).
  { intros host. subst settled. cbn beta.
    rewrite (render_element Dedicated). unfold run_microtasks.
    cbn [snd page microtasks quiescent app chains fold_left fetches
         dom console requests unhandled].
    rewrite run_dedicated_chain. reflexivity. }
  rewrite !Hs. cbn [dom console requests unhandled].
  split; [reflexivity|].
  split; [exact (f_equal (fmap body_rows) dedicated_table)|].
  repeat split.
Qed.

(** ** C8: the url is used only by the Dedicated renderer *)

Lemma plain_renderer_unused (f : string -> JsValue -> Js unit) (markup : string) :
  (forall url container w, f url container w = set_innerHTML container markup w) ->
  url_unused f.
Proof.
  intros Hf u1 u2 container w. rewrite !Hf.
  destruct container; repeat split.
Qed.

(** C8. [renderProjectsRateCard], [renderDispatchRateCard] and
    [renderScheduledRateCard] do the same whatever the url: for any two urls
    the call has the same outcome and leaves the same world (container
    content, console, requests, pending chains), and it issues no request,
    logs nothing and leaves nothing pending. *)
Theorem url_used_only_by_dedicated :
  url_unused renderProjectsRateCard /\
  url_unused renderDispatchRateCard /\
  url_unused renderScheduledRateCard.
Proof.
  split; [|split]; eapply plain_renderer_unused; intros; reflexivity.
Qed.

(** The Dedicated renderer does use it: the url is the request it issues. *)
Remark dedicated_uses_url : ~ url_unused renderDedicatedRateCard.
Proof.
  intros H.
  destruct (H "/a" "/b" VNull (quiescent blank_page)) as (_ & Hreq & _).
  vm_compute in Hreq. discriminate.
Qed.

(** ** C9: an absent container *)

(** C9. With [null] (or [undefined]) as container, each of the four
    renderers ends by throwing a TypeError from the [innerHTML] assignment;
    nothing in the renderer catches it, and no element is written. *)
Theorem absent_container_throws (c : Category) (url : string) (w : World) :
  (exists msg, (renderer c url VNull w).1 = Throw (TypeError msg)) /\
  (exists msg, (renderer c url VUndefined w).1 = Throw (TypeError msg)) /\
  dom (page (renderer c url VNull w).2) = dom (page w) /\
  dom (page (renderer c url VUndefined w).2) = dom (page w).
Proof.
  destruct w as [[d l r u] m].
  destruct c; (split; [eexists; reflexivity|]);
    (split; [eexists; reflexivity|]); split; reflexivity.
Qed.

(** ** C10: the markup is a constant *)

(** C10. The markup each renderer writes is one fixed string per category,
    the template literal around that category's header literal: neither the
    url nor the container (nor the page) enters it, so any two urls, the
    Dedicated variant included, leave byte-for-byte the same content. *)
Theorem markup_is_constant (c : Category) :
  (exists fixed : string,
     fixed = "<table>" +:+ header_of c +:+ "<tbody></tbody></table>" /\
     forall (url : string) (h : Handle) (w : World),
       content_after (renderer c url (VElement h) w) h = Some fixed) /\
  (forall (u1 u2 : string) (h1 h2 : Handle) (w1 w2 : World),
     content_after (renderer c u1 (VElement h1) w1) h1 =
     content_after (renderer c u2 (VElement h2) w2) h2).
Proof.
  split.
  - exists (markup_of c). split; [reflexivity|]. intros. apply render_content.
  - intros. by rewrite !render_content.
Qed.

(** * Further properties of the renderers *)

(** ** The Dedicated renderer on an absent container *)

(** X2. [renderDedicatedRateCard] starts its fetch before it touches the
    container: with [null] or [undefined] as container the call throws, yet
    the request for the url has been issued, and once the chain settles the
    console has gained exactly one entry; no element is written and no
    rejection is left unhandled. *)
Theorem dedicated_fetches_before_throwing (host : Host) (url : string)
    (container : JsValue) (p : Page) :
  container = VNull \/ container = VUndefined ->
  let r := renderDedicatedRateCard url container (quiescent p) in
  let final := page (run_microtasks host r.2) in
  (exists msg, r.1 = Throw (TypeError msg)) /\
  requests (page r.2) = requests p ++ [url] /\
  console (page r.2) = console p /\
  console final = console p ++ [logged host url] /\
  dom final = dom p /\
  unhandled final = unhandled p.
Proof.
  intros Hc r final.
  assert (Hr : exists msg,
             r = (Throw (TypeError msg),
                  mkWorld (mkPage (dom p) (console p) (requests p ++ [url])
                                  (unhandled p))
                          [dedicated_chain url])).
  { subst r. destruct p as [d l q u].
    destruct Hc as [-> | ->]; eexists; reflexivity. }
  destruct Hr as [msg Hr]. subst final. rewrite Hr.
  unfold run_microtasks.
  cbn [fst snd page microtasks fold_left dom console requests unhandled].
  rewrite run_dedicated_chain.
  split; [by exists msg|]. repeat split.
Qed.

Lemma dedicated_fetches_before_throwing_witness :
  requests (page (renderDedicatedRateCard "/rate-cards/dedicated/" VNull
                    (quiescent blank_page)).2) = ["/rate-cards/dedicated/"] /\
  console (page (run_microtasks offline_host
             (renderDedicatedRateCard "/rate-cards/dedicated/" VNull
                (quiescent blank_page)).2))
    = [LogError (TypeError "Failed to fetch")].
Proof.
  split;
    apply (dedicated_fetches_before_throwing offline_host
             "/rate-cards/dedicated/" VNull blank_page); by left.
Defined.

(** ** Sequences of calls *)

Lemma render_all_world (calls : list Call) (w : World) :
  render_all calls w =
  mkWorld (mkPage (written calls (dom (page w))) (console (page w))
                  (requests (page w) ++ fetched calls) (unhandled (page w)))
          (microtasks w ++ left_pending calls).
Proof.
  revert w. induction calls as [|k calls IH]; intros w.
  - destruct w as [[d l r u] m]. cbn. by rewrite !app_nil_r.
  - change (render_all (k :: calls) w)
      with (render_all calls
              (renderer (category k) (locator k) (VElement (target k)) w).2).
    rewrite IH, render_element.
    cbn [snd page microtasks dom console requests unhandled].
    unfold fetched, left_pending. cbn [flat_map written fold_left].
    by rewrite <- !app_assoc.
Qed.





(** ** Calls on different elements *)

(** X5. Calls on two different elements can be made in either order: the
    page's elements end up the same. *)
Theorem calls_on_distinct_elements_commute (c1 c2 : Category)
    (u1 u2 : string) (h1 h2 : Handle) (w : World) :
  h1 ≠ h2 ->
  dom (page (render_all [mkCall c1 u1 h1; mkCall c2 u2 h2] w)) =
  dom (page (render_all [mkCall c2 u2 h2; mkCall c1 u1 h1] w)).
Proof.
  intros Hne. rewrite !render_all_world. cbn [page dom written fold_left
    target category]. by apply insert_insert_ne.
Qed.

Lemma calls_on_distinct_elements_commute_witness :
  dom (page (render_all [mkCall Projects "/p" 1%positive;
                         mkCall Dedicated "/d" 2%positive]
                        (quiescent blank_page))) =
  dom (page (render_all [mkCall Dedicated "/d" 2%positive;
                         mkCall Projects "/p" 1%positive]
                        (quiescent blank_page))).
Proof.
  apply calls_on_distinct_elements_commute. discriminate.
Defined.

(** ** The layout the four headers share *)

Lemma dispatch_table :
  parse_table (markup_of Dispatch) =
  Some (mkTable
          [ generic_columns
              ++ [group "Dispatch Tickets (incident) " 6;
                  group "Dispatch Ticket (IMAC) " 3]
              ++ closing_columns;
            map plain ["4 Hours"; "SBD"; "NBD"; "2 BD"; "3 BD";
                       "Additional Hour"; "2BD"; "3 BD"; "4 BD"] ]
          []).
Proof. vm_compute. reflexivity. Qed.

(** X6. Every category's header has the same layout: row 1 is the 8 generic
    columns, then the category's groups, then Status and Action, where the
    generic and closing cells span both rows and each group cell carries only
    a colspan; row 2 consists of cells without spans. The grid is
    rectangular: row 1 is 10 columns plus the row-2 cells wide, and row 2
    together with the cells carried down from row 1 is as wide as row 1. *)
Theorem headers_share_layout (c : Category) (url : string) (h : Handle)
    (w : World) :
  exists markup mid sub,
    content_after (renderer c url (VElement h) w) h = Some markup /\
    parse_table markup =
      Some (mkTable [generic_columns ++ mid ++ closing_columns; sub] []) /\
    forallb is_group mid = true /\
    forallb is_plain sub = true /\
    row_width (generic_columns ++ mid ++ closing_columns) = 10 + length sub /\
    carried (generic_columns ++ mid ++ closing_columns) + row_width sub =
      row_width (generic_columns ++ mid ++ closing_columns).
Proof.
  exists (markup_of c).
  destruct c; do 2 eexists; (split; [apply render_content|]);
    (split;
     [first [apply projects_table | apply dispatch_table
            | apply scheduled_table | apply dedicated_table]|]);
    repeat split; vm_compute; reflexivity.
Qed.

(** ** The Dispatch header *)

(** X7. The Dispatch header has exactly two groups: [Dispatch Tickets
    (incident) ] over the six sub-columns 4 Hours, SBD, NBD, 2 BD, 3 BD and
    Additional Hour, and [Dispatch Ticket (IMAC) ] over the three sub-columns
    2BD, 3 BD and 4 BD. *)
Theorem dispatch_groups (url : string) (h : Handle) (w : World) :
  exists markup top sub,
    content_after (renderDispatchRateCard url (VElement h) w) h = Some markup /\
    head_rows <$> parse_table markup = Some [top; sub] /\
    groups top = [group "Dispatch Tickets (incident) " 6;
                  group "Dispatch Ticket (IMAC) " 3] /\
    take 6 sub = map plain ["4 Hours"; "SBD"; "NBD"; "2 BD"; "3 BD";
                            "Additional Hour"] /\
    drop 6 sub = map plain ["2BD"; "3 BD"; "4 BD"].
Proof.
  exists (markup_of Dispatch). do 2 eexists.
  split; [apply (render_content Dispatch)|].
  split; [rewrite dispatch_table; reflexivity|].
  repeat split; vm_compute; reflexivity.
Qed.

(** ** Vocabulary of the markup *)

(** The check does reject other elements and attributes. *)
Remark token_ok_rejects :
  forallb token_ok [TOpen "script" []] = false /\
  forallb token_ok [TOpen "th" [("onclick", "2")]] = false /\
  forallb token_ok [TOpen "th" [("colspan", "x")]] = false.
Proof. repeat split; vm_compute; reflexivity. Qed.

(** X8. The markup every renderer writes is made of [table], [thead],
    [tbody], [tr] and [th] tags and text only, and the only attributes are
    [rowspan] and [colspan] with a decimal number as value: no other element
    and no other attribute is ever written. *)
Theorem only_table_markup (c : Category) (url : string) (h : Handle)
    (w : World) :
  exists markup toks,
    content_after (renderer c url (VElement h) w) h = Some markup /\
    lex markup false EmptyString = Some toks /\
    forallb token_ok toks = true.
Proof.
  exists (markup_of c).
  destruct c; eexists; (split; [apply render_content|]);
    (split; [vm_compute; reflexivity|]); vm_compute; reflexivity.
Qed.

(** ** The response status *)

(** X9. The chain of [renderDedicatedRateCard] never looks at the status of
    the response: two hosts whose responses to the url decode alike,
    whatever the statuses of the responses, leave the same page; in
    particular an error status with a JSON body is logged as a decoded value,
    not as an error. *)
Theorem response_status_ignored (host1 host2 : Host) (url : string)
    (container : JsValue) (p : Page) (r1 r2 : Response) :
  http_get host1 url = Fulfilled r1 ->
  http_get host2 url = Fulfilled r2 ->
  json_parse host1 (body r1) = json_parse host2 (body r2) ->
  page (run_microtasks host1
          (renderDedicatedRateCard url container (quiescent p)).2) =
  page (run_microtasks host2
          (renderDedicatedRateCard url container (quiescent p)).2).
Proof.
  intros H1 H2 Hj.
  destruct (render_dedicated_world url container (quiescent p)) as [d ->].
  unfold run_microtasks. cbn [page microtasks quiescent app fold_left].
  rewrite !run_dedicated_chain. unfold logged. by rewrite H1, H2, Hj.
Qed.

Lemma response_status_ignored_witness :
  page (run_microtasks json_host
          (renderDedicatedRateCard "/rate-cards/dedicated/" (VElement 1%positive)
             (quiescent blank_page)).2) =
  page (run_microtasks failing_json_host
          (renderDedicatedRateCard "/rate-cards/dedicated/" (VElement 1%positive)
             (quiescent blank_page)).2).
Proof.
  apply (response_status_ignored json_host failing_json_host
           "/rate-cards/dedicated/" (VElement 1%positive) blank_page
           (mkResponse 200 "[]") (mkResponse 500 "[]")); reflexivity.
Defined.
